(** * The [listener_info] document validator of habitat

    A shallow embedding of
    [couchdb/_design/listener_info/validate_doc_update.js], the CouchDB
    [validate_doc_update] hook for documents of type ["listener_info"], and the
    properties of it that the specification states.

    The hook is one JavaScript function of three arguments.  It returns
    normally to accept a write and throws [{unauthorized: msg}] or
    [{forbidden: msg}] to refuse it.  The embedding has three layers:

    - [Js]: the values the host hands to the hook (parsed JSON, plus
      [undefined]) and the operators of the language that the hook applies to
      them: property reads, [typeof], truthiness, [!=] against the string
      literal, [>=], [indexOf];
    - [Run]: completions (normal, thrown value, host error) threaded with the
      one global variable the hook assigns, [message];
    - [Validator]: the hook itself, statement by statement. *)

From Stdlib Require Import List String Ascii Bool ZArith Lia.
From Stdlib Require Import Floats.
Import ListNotations.

#[local] Set Warnings "-register-all".

#[local] Open Scope string_scope.

(* ================================================================== *)
(** * JavaScript values and operators                                  *)
(* ================================================================== *)

Module Js.

(** The values a CouchDB document, an old revision or a user context is made
    of.  Numbers are IEEE binary64, as in the language.  An object is its table
    of own properties in the order they are looked up: the first binding of a
    key is the property.  Documents are parsed JSON, so no value is callable
    and no property is an accessor. *)
Inductive value : Type :=
| Undefined
| Null
| Bool (b : bool)
| Num (x : float)
| Str (s : string)
| Arr (items : list value)
| Obj (props : list (string * value)).

(** How an evaluation ends: with a result, with a value thrown by a [throw]
    statement, or with an error raised by the language itself. *)
Inductive host_error : Type :=
| TypeError
| ReferenceError.

Inductive completion (A : Type) : Type :=
| Normal (a : A)
| Throw (v : value)
| HostError (e : host_error).

Arguments Normal {A} a.
Arguments Throw {A} v.
Arguments HostError {A} e.

(** [typeof v]. *)
Definition typeof (v : value) : string :=
  match v with
  | Undefined => "undefined"
  | Null => "object"
  | Bool _ => "boolean"
  | Num _ => "number"
  | Str _ => "string"
  | Arr _ => "object"
  | Obj _ => "object"
  end.

(** ToBoolean: what [if (v)], [!v] and [v && ...] test.  The falsy values are
    [undefined], [null], [false], [+0], [-0], [NaN] and the empty string. *)
Definition truthy (v : value) : bool :=
  match v with
  | Undefined => false
  | Null => false
  | Bool b => b
  | Num x => negb (PrimFloat.is_zero x || PrimFloat.is_nan x)
  | Str s => negb (s =? "")
  | Arr _ => true
  | Obj _ => true
  end.

(** Own-property lookup in an object's table. *)
Fixpoint lookup (k : string) (props : list (string * value)) : value :=
  match props with
  | [] => Undefined
  | (k', v) :: rest => if k =? k' then v else lookup k rest
  end.

Definition has_own (k : string) (props : list (string * value)) : bool :=
  existsb (fun p => k =? fst p) props.

(** The property read [o[k]] (or [o.k]).  Reading from [undefined] or [null]
    is a TypeError.  An object answers with its own property, [undefined] when
    it has none.  The model covers data properties only: what a primitive or an
    array inherits from its prototype, and the [length] and index properties of
    strings and arrays, are not represented, and none of them is among the
    names the validator reads ([type], [roles], [time_created],
    [time_uploaded], [data], [callsign]). *)
Definition get (o : value) (k : string) : completion value :=
  match o with
  | Undefined => HostError TypeError
  | Null => HostError TypeError
  | Obj props => Normal (lookup k props)
  | Bool _ => Normal Undefined
  | Num _ => Normal Undefined
  | Str _ => Normal Undefined
  | Arr _ => Normal Undefined
  end.

(** ** Text of a value

    [ToString] of a number is its shortest round-tripping decimal expansion,
    which is not computed here: the text of a value is a list of glyphs in
    which the expansion of a number [x] stays the single glyph [Digits x]. *)
Inductive glyph : Type :=
| Chr (c : ascii)
| Digits (x : float).

Definition text : Type := list glyph.

Definition text_of_string (s : string) : text :=
  map Chr (list_ascii_of_string s).

(** [ToString v], as [Array.prototype.join] and [==] apply it.  An array is the
    texts of its elements separated by commas, [undefined] and [null] elements
    contributing nothing.  A plain object is ["[object Object]"], unless it has
    an own property [toString]: that property shadows
    [Object.prototype.toString], is not callable, [valueOf] returns the object
    itself, and the conversion fails with a TypeError ([None]). *)
Fixpoint ToString (v : value) : option text :=
  match v with
  | Undefined => Some (text_of_string "undefined")
  | Null => Some (text_of_string "null")
  | Bool true => Some (text_of_string "true")
  | Bool false => Some (text_of_string "false")
  | Num x => Some [Digits x]
  | Str s => Some (text_of_string s)
  | Arr items =>
      let element (e : value) : option text :=
        match e with
        | Undefined => Some []
        | Null => Some []
        | _ => ToString e
        end in
      (fix join (l : list value) : option text :=
         match l with
         | [] => Some []
         | [e] => element e
         | e :: rest =>
             match element e, join rest with
             | Some t, Some u => Some (t ++ Chr ","%char :: u)%list
             | _, _ => None
             end
         end) items
  | Obj props =>
      if has_own "toString" props then None
      else Some (text_of_string "[object Object]")
  end.

(** Whether a text is the string [s].  The expansion of a number is never
    empty and starts with a digit, a minus sign, [N] (NaN) or [I] (Infinity);
    the comparison is used against literals that contain none of these, so a
    [Digits] glyph never matches (see [text_is_render]). *)
Fixpoint text_is (t : text) (s : string) : bool :=
  match t, s with
  | [], EmptyString => true
  | Chr c :: t', String d s' => Ascii.eqb c d && text_is t' s'
  | _, _ => false
  end.

(** The type tag the validator guards. *)
Definition listener_info : string := "listener_info".

(** [v == "listener_info"], the Abstract Equality Comparison against the
    string literal.  A string is compared as a string.  [undefined] and [null]
    equal only each other.  A number or a boolean is compared with
    ToNumber("listener_info"), which is NaN and equals nothing.  An array or an
    object is first converted to a primitive, its text. *)
Definition eq_listener_info (v : value) : completion bool :=
  match v with
  | Undefined => Normal false
  | Null => Normal false
  | Bool _ => Normal false
  | Num _ => Normal false
  | Str s => Normal (s =? listener_info)
  | Arr _ | Obj _ =>
      match ToString v with
      | Some t => Normal (text_is t listener_info)
      | None => HostError TypeError
      end
  end.

(** [a >= b] on numbers: IEEE greater-or-equal, false when either is NaN.
    The validator evaluates it only after both operands passed the
    [typeof ... == "number"] check of [required]; operands of other types get
    the placeholder [false] and never reach it (see [required_number]). *)
Definition geb (x y : float) : bool := PrimFloat.leb y x.

Definition ge (a b : value) : bool :=
  match a, b with
  | Num x, Num y => geb x y
  | _, _ => false
  end.

(** [Array.prototype.indexOf]: the first position whose element is strictly
    equal ([===]) to the string searched, or -1. *)
Definition strict_eq_string (v : value) (s : string) : bool :=
  match v with
  | Str t => t =? s
  | _ => false
  end.

Fixpoint array_indexOf (items : list value) (s : string) (from : Z) : Z :=
  match items with
  | [] => (-1)%Z
  | e :: rest =>
      if strict_eq_string e s then from else array_indexOf rest s (from + 1)%Z
  end.

(** [String.prototype.indexOf]: the first position at which the string
    searched occurs, or -1. *)
Definition string_indexOf (s : string) (sub : string) : Z :=
  match String.index 0 sub s with
  | Some i => Z.of_nat i
  | None => (-1)%Z
  end.

(** The method call [recv.indexOf(s)].  It is a TypeError when [recv] is
    [undefined] or [null] (no property can be read) and when [recv] is a
    boolean, a number or an object (its [indexOf] property is [undefined] or
    data, not a function).  Arrays and strings have the method. *)
Definition indexOf (recv : value) (s : string) : completion Z :=
  match recv with
  | Undefined => HostError TypeError
  | Null => HostError TypeError
  | Bool _ => HostError TypeError
  | Num _ => HostError TypeError
  | Obj _ => HostError TypeError
  | Arr items => Normal (array_indexOf items s 0)
  | Str t => Normal (string_indexOf t s)
  end.

End Js.

(* ================================================================== *)
(** * Running statements                                               *)
(* ================================================================== *)

Module Run.
Import Js.

(** The hook declares no variable named [message], so its assignments go to a
    property of the global object, which outlives the call.  [None]: the
    global object has no such property. *)
Record globals : Type := { message : option value }.

(** A statement maps the globals to a completion and the globals after it. *)
Definition M (A : Type) : Type := globals -> completion A * globals.

Definition ret {A : Type} (a : A) : M A := fun g => (Normal a, g).

Definition bind {A B : Type} (m : M A) (k : A -> M B) : M B :=
  fun g =>
    match m g with
    | (Normal a, g') => k a g'
    | (Throw v, g') => (Throw v, g')
    | (HostError e, g') => (HostError e, g')
    end.

(** An expression without effects, evaluated in a statement. *)
Definition eval {A : Type} (c : completion A) : M A := fun g => (c, g).

Definition throw {A : Type} (v : value) : M A := eval (Throw v).

(** [message = v]. *)
Definition set_message (v : value) : M unit :=
  fun _ => (Normal tt, {| message := Some v |}).

(** The variable [message] read; a ReferenceError when it does not exist. *)
Definition get_message : M value :=
  fun g =>
    match message g with
    | Some v => (Normal v, g)
    | None => (HostError ReferenceError, g)
    end.

Definition outcome {A : Type} (r : completion A * globals) : completion A := fst r.
Definition final {A : Type} (r : completion A * globals) : globals := snd r.

End Run.

Declare Scope js_scope.
Delimit Scope js_scope with js.

Notation "x <- m ;; k" := (Run.bind m (fun x => k))
  (at level 61, m at next level, right associativity) : js_scope.
Notation "m ;; k" := (Run.bind m (fun _ => k))
  (at level 61, right associativity) : js_scope.

(* ================================================================== *)
(** * The validator                                                    *)
(* ================================================================== *)

Module Validator.
Import Js Run.
#[local] Open Scope js_scope.

(** [function user_is(role) { return userCtx.roles.indexOf(role) >= 0; }] *)
Definition user_is (userCtx : value) (role : string) : completion bool :=
  match get userCtx "roles" with
  | Normal roles =>
      match indexOf roles role with
      | Normal i => Normal (0 <=? i)%Z
      | Throw v => Throw v
      | HostError e => HostError e
      end
  | Throw v => Throw v
  | HostError e => HostError e
  end.

(** [v + s] for a string [v]: concatenation.  It is the one use of [+=] in the
    hook, on [message] right after a string was assigned to it; the second
    case is not reached ([required_run] has the messages in closed form). *)
Definition append (v : value) (s : string) : value :=
  match v with
  | Str m => Str (m ++ s)
  | _ => Str s
  end.

(** The default of the third parameter of [required], [inside=newDoc]: an
    argument left out, or [undefined], stands for the document. *)
Definition default (newDoc inside : value) : value :=
  match inside with
  | Undefined => newDoc
  | _ => inside
  end.

(** [[
function required(field, type, inside=newDoc) {
    if(!inside[field]) {
        message = "Must have a `" + field + "` field.";
        throw({forbidden: message});
    }
    if(type && typeof(inside[field]) != type) {
        message = "Wrong type for `" + field + "` ("
        message += typeof(inside[field]) + "), should be " + type + ".";
        throw({forbidden: message});
    }
}
]]
    [type] is a string, or left out ([None]).  [message] is not declared in
    the hook: the assignments and the reads go to the global variable. *)
Definition required (newDoc : value) (field : string) (type : option string)
    (inside : value) : M unit :=
  let inside := default newDoc inside in
  v <- eval (get inside field) ;;
  if negb (truthy v) then
    set_message (Str ("Must have a `" ++ field ++ "` field.")) ;;
    m <- get_message ;;
    throw (Obj [("forbidden", m)])
  else
    match type with
    | None => ret tt
    | Some t =>
        v1 <- eval (get inside field) ;;
        if truthy (Str t) && negb (typeof v1 =? t) then
          set_message (Str ("Wrong type for `" ++ field ++ "` (")) ;;
          v2 <- eval (get inside field) ;;
          m <- get_message ;;
          set_message (append m (typeof v2 ++ "), should be " ++ t ++ ".")) ;;
          m' <- get_message ;;
          throw (Obj [("forbidden", m')])
        else ret tt
    end.

(** The hook, the anonymous function of [validate_doc_update.js] that the
    specification calls [validate].
[[
function(newDoc, oldDoc, userCtx) {
    if(newDoc.type != "listener_info") return;
    if(oldDoc && !user_is('admin')) {
        throw({unauthorized: "Only administrators may edit listener_info docs."});
    }
    required('time_created', 'number');
    required('time_uploaded', 'number');
    if(newDoc['time_created'] >= newDoc['time_uploaded']) {
        throw({forbidden: "Document creation date is after upload date."});
    }
    required('data', 'object');
    required('callsign', 'string', newDoc['data']);
}
]] *)
Definition validate (newDoc oldDoc userCtx : value) : M unit :=
  type <- eval (get newDoc "type") ;;
  same <- eval (eq_listener_info type) ;;
  if negb same then ret tt
  else
    refused <- (if truthy oldDoc
                then is_admin <- eval (user_is userCtx "admin") ;;
                     ret (negb is_admin)
                else ret false) ;;
    if refused then
      throw (Obj [("unauthorized",
                   Str "Only administrators may edit listener_info docs.")])
    else
      required newDoc "time_created" (Some "number") Undefined ;;
      required newDoc "time_uploaded" (Some "number") Undefined ;;
      created <- eval (get newDoc "time_created") ;;
      uploaded <- eval (get newDoc "time_uploaded") ;;
      if ge created uploaded then
        throw (Obj [("forbidden",
                     Str "Document creation date is after upload date.")])
      else
        required newDoc "data" (Some "object") Undefined ;;
        data <- eval (get newDoc "data") ;;
        required newDoc "callsign" (Some "string") data.

End Validator.

(* ================================================================== *)
(** * What the specification names                                     *)
(* ================================================================== *)

Module Spec.
Import Js Run Validator.

(** The two rejection values of the host contract. *)
Definition unauthorized (msg : string) : value := Obj [("unauthorized", Str msg)].
Definition forbidden (msg : string) : value := Obj [("forbidden", Str msg)].

(** The four messages. *)
Definition not_admin : string :=
  "Only administrators may edit listener_info docs.".
Definition bad_order : string :=
  "Document creation date is after upload date.".
Definition must_have (field : string) : string :=
  "Must have a `" ++ field ++ "` field.".
Definition wrong_type (field actual expected : string) : string :=
  "Wrong type for `" ++ field ++ "` (" ++ actual ++ "), should be " ++ expected ++ ".".

(** The authorization step lets the write through: it is a creation, or the
    requester is an administrator. *)
Definition authorized (oldDoc userCtx : value) : Prop :=
  truthy oldDoc = false \/ user_is userCtx "admin" = Normal true.

(** The field of a document, [undefined] when it cannot be read. *)
Definition field_of (doc : value) (k : string) : value :=
  match get doc k with
  | Normal v => v
  | _ => Undefined
  end.

(** The checks of section 4.1, step 3, each on its own: [Some msg] when the
    check fails, with the message of its rejection. *)
Definition presence (field : string) (v : value) : option string :=
  if truthy v then None else Some (must_have field).

Definition type_tag (field expected : string) (v : value) : option string :=
  if typeof v =? expected then None
  else Some (wrong_type field (typeof v) expected).

Definition ordering (created uploaded : value) : option string :=
  if ge created uploaded then Some bad_order else None.

(** The checks in the fixed order of the specification: [time_created]
    (presence, then type), [time_uploaded] (presence, then type), ordering,
    [data] (presence, then type), [data.callsign] (presence, then type). *)
Definition checks (newDoc : value) : list (option string) :=
  let created := field_of newDoc "time_created" in
  let uploaded := field_of newDoc "time_uploaded" in
  let data := field_of newDoc "data" in
  let callsign := field_of data "callsign" in
  [ presence "time_created" created;
    type_tag "time_created" "number" created;
    presence "time_uploaded" uploaded;
    type_tag "time_uploaded" "number" uploaded;
    ordering created uploaded;
    presence "data" data;
    type_tag "data" "object" data;
    presence "callsign" callsign;
    type_tag "callsign" "string" callsign ].

(** The first failing check of a list, if any. *)
Fixpoint first_failure (cs : list (option string)) : option string :=
  match cs with
  | [] => None
  | Some msg :: _ => Some msg
  | None :: rest => first_failure rest
  end.

(** The result the host sees for the outcome of the field checks. *)
Definition verdict (failure : option string) : completion unit :=
  match failure with
  | Some msg => Throw (forbidden msg)
  | None => Normal tt
  end.

(** The type values that [!=] does not tell from the string
    ["listener_info"]: the string itself, and the string inside any number of
    one-element arrays, whose text is the string. *)
Fixpoint wraps_listener_info (v : value) : bool :=
  match v with
  | Str s => s =? listener_info
  | Arr [e] => wraps_listener_info e
  | _ => false
  end.

(** A text written out, given the decimal expansion of numbers. *)
Fixpoint render (expansion : float -> string) (t : text) : string :=
  match t with
  | [] => ""
  | Chr c :: t' => String c (render expansion t')
  | Digits x :: t' => expansion x ++ render expansion t'
  end.

(** The characters a decimal expansion can start with: a digit, the minus
    sign, the [N] of NaN and the [I] of Infinity. *)
Definition number_lead (c : ascii) : bool :=
  let n := nat_of_ascii c in
  ((48 <=? n) && (n <=? 57))%nat || Ascii.eqb c "-" || Ascii.eqb c "N" || Ascii.eqb c "I".

Fixpoint no_number_lead (s : string) : bool :=
  match s with
  | EmptyString => true
  | String c s' => negb (number_lead c) && no_number_lead s'
  end.


(** The messages with which [required] rejects a field. *)
Definition required_message (field msg : string) : Prop :=
  msg = must_have field
  \/ exists actual expected : string, msg = wrong_type field actual expected.

(** A rejection by [required]: the message is thrown, and it stays in the
    global [message]. *)
Definition rejected (msg : string) : completion unit * globals :=
  (Throw (forbidden msg), {| message := Some (Str msg) |}).

(** A statement whose completion does not depend on the globals it starts
    from. *)
Definition stateless {A : Type} (m : M A) : Prop :=
  forall g1 g2 : globals, outcome (m g1) = outcome (m g2).

(** Whether a text, or a string, has a comma in it. *)
Fixpoint has_comma (t : text) : bool :=
  match t with
  | [] => false
  | Chr c :: t' => Ascii.eqb c "," || has_comma t'
  | Digits _ :: t' => has_comma t'
  end.

Fixpoint string_has_comma (s : string) : bool :=
  match s with
  | EmptyString => false
  | String c s' => Ascii.eqb c "," || string_has_comma s'
  end.

(** A global state and the documents of the specification's scenarios. *)
Definition fresh : globals := {| message := None |}.

Definition listener (created uploaded : float) (data : value) : value :=
  Obj [("type", Str "listener_info");
       ("time_created", Num created);
       ("time_uploaded", Num uploaded);
       ("data", data)].

Definition station : value := Obj [("callsign", Str "G0ABC")].

Definition roles (names : list string) : value :=
  Obj [("roles", Arr (map Str names))].

End Spec.

Import Js Run Validator Spec.
#[local] Open Scope js_scope.

(* ================================================================== *)
(** * Scenarios of the specification (section 8)                       *)
(* ================================================================== *)

Example scenario_1 :
  validate (listener 100 200 station) Undefined (roles ["user"]) fresh
  = (Normal tt, fresh).
Proof. reflexivity. Qed.

Example scenario_2 :
  outcome (validate (listener 200 100 station) Undefined (roles []) fresh)
  = Throw (forbidden "Document creation date is after upload date.").
Proof. reflexivity. Qed.

Example scenario_3 :
  outcome (validate (listener 100 200 station) (Obj []) (roles ["user"]) fresh)
  = Throw (unauthorized "Only administrators may edit listener_info docs.").
Proof. reflexivity. Qed.

Example scenario_4 :
  validate (listener 100 200 station) (Obj []) (roles ["admin"; "user"]) fresh
  = (Normal tt, fresh).
Proof. reflexivity. Qed.

Example scenario_5 :
  outcome (validate (listener 100 200 (Obj [])) Undefined (roles []) fresh)
  = Throw (forbidden "Must have a `callsign` field.").
Proof. reflexivity. Qed.

Example scenario_6 :
  validate (Obj [("type", Str "other_type"); ("data", Num 7)]) (Obj []) Null fresh
  = (Normal tt, fresh).
Proof. reflexivity. Qed.

(* ================================================================== *)
(** * Strings, texts and numbers                                       *)
(* ================================================================== *)

Lemma append_assoc (a b c : string) : (a ++ b) ++ c = a ++ (b ++ c).
Proof.
  induction a as [|x a IH]; simpl; [reflexivity | now rewrite IH].
Qed.

Lemma text_is_string (s r : string) :
  text_is (text_of_string s) r = (s =? r).
Proof.
  revert r; induction s as [|c s IH]; intros [|d r]; simpl; try reflexivity.
  unfold text_of_string in IH. now rewrite IH.
Qed.

Lemma has_comma_app (t u : text) :
  has_comma (t ++ Chr ","%char :: u)%list = true.
Proof.
  induction t as [|[c|x] t IH]; simpl; auto.
  rewrite IH. apply orb_true_r.
Qed.

Lemma text_is_comma (t : text) (s : string) :
  has_comma t = true -> string_has_comma s = false -> text_is t s = false.
Proof.
  revert s; induction t as [|[c|x] t IH]; intros [|d s]; simpl; try easy.
  intros Ht Hs. apply orb_false_elim in Hs as [Hd Hs].
  destruct (Ascii.eqb_spec c d) as [->|]; [|reflexivity].
  rewrite Hd in Ht. simpl in *. now apply IH.
Qed.

(** [text_is] decides equality with the written-out text, whatever the decimal
    expansion of numbers is, as long as expansions start as they do and the
    string compared against has no such character. *)
Lemma text_is_render (expansion : float -> string) (t : text) (s : string) :
  (forall x, exists c r, expansion x = String c r /\ number_lead c = true) ->
  no_number_lead s = true ->
  (render expansion t =? s) = text_is t s.
Proof.
  intros Hlead. revert s; induction t as [|[c|x] t IH]; intros s Hs.
  - destruct s; reflexivity.
  - destruct s as [|d s]; [reflexivity|]. simpl in Hs.
    apply andb_prop in Hs as [_ Hs]. specialize (IH s Hs).
    simpl. rewrite <- IH. destruct (Ascii.eqb c d); reflexivity.
  - destruct (Hlead x) as (c & r & Hx & Hc). simpl. rewrite Hx.
    destruct s as [|d s]; [reflexivity|]. simpl in Hs.
    apply andb_prop in Hs as [Hd _]. apply String.eqb_neq.
    simpl. intros [= -> _]. now rewrite Hc in Hd.
Qed.

(** In particular for the type tag: comparing texts with [text_is] is
    comparing the strings [==] compares. *)
Lemma text_is_listener_info (expansion : float -> string) (t : text) :
  (forall x, exists c r, expansion x = String c r /\ number_lead c = true) ->
  (render expansion t =? listener_info) = text_is t listener_info.
Proof.
  intros Hlead. now apply text_is_render.
Qed.

(** The text of a value is the type tag exactly for the values of
    [wraps_listener_info]. *)
Lemma ToString_listener_info :
  forall (v : value) (t : text),
    ToString v = Some t -> text_is t listener_info = wraps_listener_info v.
Proof.
  fix IH 1. intros [| |[|]|x|s|items|props] t; simpl; try (intros [= <-]; reflexivity).
  - intros [= <-]. apply text_is_string.
  - destruct items as [|e [|e' rest]].
    + intros [= <-]. reflexivity.
    + pose proof (IH e t) as IHe. clear IH.
      destruct e; try exact IHe; intros [= <-]; reflexivity.
    + match goal with
      | |- match ?a with _ => _ end = _ -> _ => destruct a as [u|]; [|discriminate]
      end.
      match goal with
      | |- match ?a with _ => _ end = _ -> _ => destruct a as [w|]; [|discriminate]
      end.
      clear IH. intros [= <-]. apply text_is_comma; [apply has_comma_app | reflexivity].
  - destruct (has_own "toString" props); [discriminate|]. intros [= <-]. reflexivity.
Qed.

(** [==] against the type tag, in closed form. *)
Lemma eq_listener_info_wraps (v : value) :
  ToString v <> None -> eq_listener_info v = Normal (wraps_listener_info v).
Proof.
  intros Hv. destruct v as [| |b|x|s|items|props]; try reflexivity;
    unfold eq_listener_info;
    (destruct (ToString _) as [t|] eqn:Ht; [|congruence]);
    now rewrite (ToString_listener_info _ _ Ht).
Qed.

(** Comparison of binary64 numbers: swapping the operands mirrors the
    result. *)
Lemma SFcompare_swap (x y : spec_float) :
  SFcompare y x = option_map CompOpp (SFcompare x y).
Proof.
  destruct x as [sx|sx| |sx mx ex], y as [sy|sy| |sy my ey]; simpl;
    try reflexivity;
    try (destruct sx; reflexivity); try (destruct sy; reflexivity);
    try (destruct sx, sy; reflexivity).
  pose proof (Pos.compare_cont_antisym mx my Eq) as Hm. simpl in Hm.
  destruct sx, sy; try reflexivity; simpl;
    rewrite (Z.compare_antisym ex ey);
    destruct (ex ?= ey)%Z; simpl; try reflexivity;
    rewrite <- Hm; destruct (Pos.compare_cont Eq mx my); reflexivity.
Qed.

Lemma is_nan_false (x : float) :
  PrimFloat.is_nan x = false -> Prim2SF x <> S754_nan.
Proof.
  unfold PrimFloat.is_nan. rewrite eqb_spec. unfold SFeqb.
  intros H E. rewrite E in H. discriminate.
Qed.

Lemma SFcompare_comparable (x y : spec_float) :
  x <> S754_nan -> y <> S754_nan -> exists c, SFcompare x y = Some c.
Proof.
  destruct x, y; simpl; intros Hx Hy; try congruence; eauto.
Qed.

(** When neither number is NaN, [x >= y] fails exactly when [x < y]. *)
Lemma geb_false_ltb (x y : float) :
  PrimFloat.is_nan x = false -> PrimFloat.is_nan y = false ->
  geb x y = false -> PrimFloat.ltb x y = true.
Proof.
  intros Hx Hy. apply is_nan_false in Hx. apply is_nan_false in Hy.
  unfold geb. rewrite leb_spec, ltb_spec. unfold SFleb, SFltb.
  rewrite (SFcompare_swap (Prim2SF x) (Prim2SF y)).
  destruct (SFcompare_comparable _ _ Hx Hy) as [c ->].
  destruct c; simpl; congruence.
Qed.

Lemma ltb_geb_false (x y : float) :
  PrimFloat.ltb x y = true -> geb x y = false.
Proof.
  unfold geb. rewrite leb_spec, ltb_spec. unfold SFleb, SFltb.
  rewrite (SFcompare_swap (Prim2SF x) (Prim2SF y)).
  destruct (SFcompare (Prim2SF x) (Prim2SF y)) as [[| |]|]; simpl; congruence.
Qed.

Lemma truthy_number (x : float) :
  truthy (Num x) = true -> PrimFloat.is_nan x = false.
Proof.
  simpl. intros H. apply negb_true_iff in H.
  now apply orb_false_elim in H.
Qed.

(* ================================================================== *)
(** * Running the helper and the hook                                  *)
(* ================================================================== *)

Lemma bind_eval {A B : Type} (c : completion A) (k : A -> M B) (g : globals) :
  bind (eval c) k g
  = match c with
    | Normal a => k a g
    | Throw v => (Throw v, g)
    | HostError e => (HostError e, g)
    end.
Proof. destruct c; reflexivity. Qed.

Lemma required_run (newDoc : value) (field t : string) (inside v : value) (g : globals) :
  get (default newDoc inside) field = Normal v ->
  required newDoc field (Some t) inside g
  = match presence field v with
    | Some msg => rejected msg
    | None =>
        if t =? "" then (Normal tt, g)
        else match type_tag field t v with
             | Some msg => rejected msg
             | None => (Normal tt, g)
             end
    end.
Proof.
  intros Hv. unfold required, presence, type_tag. cbv zeta. rewrite Hv.
  change (truthy (Str t)) with (negb (t =? "")).
  cbv [bind eval set_message get_message throw ret message
       rejected forbidden wrong_type must_have append].
  destruct (truthy v), (t =? ""), (typeof v =? t); simpl;
    rewrite ?append_assoc; reflexivity.
Qed.

Lemma listener_is_object (newDoc : value) :
  get newDoc "type" = Normal (Str listener_info) ->
  exists props, newDoc = Obj props /\ lookup "type" props = Str listener_info.
Proof.
  destruct newDoc; simpl; try discriminate. intros [= H]. eauto.
Qed.

Lemma authorized_run (oldDoc userCtx : value) (g : globals) :
  authorized oldDoc userCtx ->
  (if truthy oldDoc
   then is_admin <- eval (user_is userCtx "admin") ;; ret (negb is_admin)
   else ret false) g = (Normal false, g).
Proof.
  intros [H|H].
  - now rewrite H.
  - rewrite H. now destruct (truthy oldDoc).
Qed.

Lemma bind_run {A B : Type} (m : M A) (k : A -> M B) (g : globals) :
  bind m k g
  = match m g with
    | (Normal a, g') => k a g'
    | (Throw v, g') => (Throw v, g')
    | (HostError e, g') => (HostError e, g')
    end.
Proof. reflexivity. Qed.

(** The field checks that follow the authorization step. *)
Lemma validate_fields (newDoc oldDoc userCtx : value) (g : globals) :
  get newDoc "type" = Normal (Str listener_info) ->
  authorized oldDoc userCtx ->
  outcome (validate newDoc oldDoc userCtx g) = verdict (first_failure (checks newDoc)).
Proof.
  intros Htype Hauth.
  destruct (listener_is_object _ Htype) as (props & -> & Hp).
  unfold validate. rewrite bind_eval. simpl get. rewrite Hp.
  rewrite bind_eval. simpl eq_listener_info. cbn [negb].
  rewrite bind_run, (authorized_run _ _ g Hauth). cbv iota beta.
  unfold checks, field_of. simpl get. cbv zeta.
  remember (lookup "time_created" props) as created eqn:Hc.
  remember (lookup "time_uploaded" props) as uploaded eqn:Hu.
  remember (lookup "data" props) as data eqn:Hd.
  rewrite bind_run, (required_run _ _ _ _ created) by (simpl; congruence).
  simpl first_failure.
  destruct (presence "time_created" created); [reflexivity|].
  simpl String.eqb. cbv iota.
  destruct (type_tag "time_created" "number" created); [reflexivity|].
  cbv beta iota.
  rewrite bind_run, (required_run _ _ _ _ uploaded) by (simpl; congruence).
  destruct (presence "time_uploaded" uploaded); [reflexivity|].
  simpl String.eqb. cbv iota.
  destruct (type_tag "time_uploaded" "number" uploaded); [reflexivity|].
  cbv beta iota. rewrite !bind_eval. unfold ordering.
  destruct (ge created uploaded); [reflexivity|].
  rewrite bind_run, (required_run _ _ _ _ data) by (simpl; congruence).
  destruct (presence "data" data) eqn:Hpresent; [reflexivity|].
  simpl String.eqb. cbv iota.
  destruct (type_tag "data" "object" data) eqn:Htag; [reflexivity|].
  cbv beta iota. rewrite bind_eval.
  assert (Hdata : exists v, get data "callsign" = Normal v /\ default (Obj props) data = data).
  { clear Hd. destruct data; try discriminate; simpl; eauto. }
  destruct Hdata as (v & Hv & Hdef). rewrite Hv.
  rewrite (required_run _ _ _ _ v) by now rewrite Hdef.
  destruct (presence "callsign" v); [reflexivity|].
  simpl String.eqb. cbv iota.
  destruct (type_tag "callsign" "string" v); reflexivity.
Qed.

(* ================================================================== *)
(** * The role lookup                                                  *)
(* ================================================================== *)

Lemma strict_eq_string_iff (v : value) (s : string) :
  strict_eq_string v s = true <-> v = Str s.
Proof.
  destruct v; simpl; try (split; [discriminate | intros [=]]).
  rewrite String.eqb_eq. split; [now intros -> | now intros [= ->]].
Qed.

(** [indexOf] on an array answers a position from [from] on when some element
    is the string, and -1 when none is. *)
Lemma array_indexOf_found (items : list value) (s : string) (from : Z) :
  (0 <= from)%Z ->
  (0 <=? array_indexOf items s from)%Z
  = existsb (fun e => strict_eq_string e s) items.
Proof.
  revert from; induction items as [|e rest IH]; intros from Hfrom; simpl.
  - reflexivity.
  - destruct (strict_eq_string e s); simpl.
    + now apply Z.leb_le.
    + apply IH. lia.
Qed.

Lemma user_is_array (userCtx : value) (rs : list value) (role : string) :
  get userCtx "roles" = Normal (Arr rs) ->
  user_is userCtx role = Normal (existsb (fun e => strict_eq_string e role) rs).
Proof.
  intros H. unfold user_is. rewrite H. simpl.
  now rewrite array_indexOf_found.
Qed.

Lemma existsb_not_in (rs : list value) (role : string) :
  ~ In (Str role) rs -> existsb (fun e => strict_eq_string e role) rs = false.
Proof.
  intros H. apply not_true_is_false. intros E.
  apply existsb_exists in E as (e & He & Heq).
  apply strict_eq_string_iff in Heq. now subst.
Qed.

Lemma existsb_in (rs : list value) (role : string) :
  In (Str role) rs -> existsb (fun e => strict_eq_string e role) rs = true.
Proof.
  intros H. apply existsb_exists. exists (Str role). split; [assumption|].
  now apply strict_eq_string_iff.
Qed.

(** The expressions of the hook do not throw: a value is thrown by a [throw]
    statement only. *)
Lemma get_no_throw (o : value) (k : string) (v : value) : get o k <> Throw v.
Proof. destruct o; discriminate. Qed.

Lemma eq_listener_info_no_throw (t v : value) : eq_listener_info t <> Throw v.
Proof.
  destruct t; try discriminate; unfold eq_listener_info;
    destruct (ToString _); discriminate.
Qed.

Lemma user_is_no_throw (userCtx : value) (role : string) (v : value) :
  user_is userCtx role <> Throw v.
Proof.
  unfold user_is. destruct (get userCtx "roles") as [r| |] eqn:Hr; try discriminate.
  - destruct r; discriminate.
  - now apply get_no_throw in Hr.
Qed.

(** The ways [required] ends: it returns and leaves the globals alone, or
    rejects, or stops on a host error of the property read. *)
Lemma required_cases (newDoc : value) (field : string) (type : option string)
    (inside : value) (g : globals) :
  required newDoc field type inside g = (Normal tt, g)
  \/ (exists msg, required newDoc field type inside g = rejected msg)
  \/ (exists e, required newDoc field type inside g = (HostError e, g)).
Proof.
  destruct (get (default newDoc inside) field) as [v|v|e] eqn:Hv.
  - destruct type as [t|].
    + rewrite (required_run _ _ _ _ v g Hv).
      destruct (presence field v); [eauto|].
      destruct (t =? ""); [auto|].
      destruct (type_tag field t v); eauto.
    + unfold required. cbv zeta. rewrite Hv.
      cbv [bind eval set_message get_message throw ret message].
      destruct (truthy v); simpl; [auto|]. right; left.
      now exists ("Must have a `" ++ field ++ "` field.").
  - now apply get_no_throw in Hv.
  - right; right. exists e. unfold required. cbv zeta. now rewrite Hv.
Qed.

(** The ways the hook ends.  It touches the globals only when [required]
    rejects. *)
Lemma typeof_number (v : value) :
  typeof v = "number" -> exists x, v = Num x.
Proof. destruct v; simpl; try discriminate. eauto. Qed.

Lemma typeof_string (v : value) :
  typeof v = "string" -> exists s, v = Str s.
Proof. destruct v; simpl; try discriminate. eauto. Qed.

(** What passed [required(field, "number")] is a truthy number: the operands
    of the [>=] of the hook are numbers. *)
Lemma required_number (newDoc : value) (field : string) (inside : value)
    (g : globals) :
  outcome (required newDoc field (Some "number") inside g) = Normal tt ->
  exists x, get (default newDoc inside) field = Normal (Num x)
            /\ truthy (Num x) = true.
Proof.
  destruct (get (default newDoc inside) field) as [v|v|e] eqn:Hv.
  - rewrite (required_run _ _ _ _ v g Hv). unfold presence, type_tag.
    destruct (truthy v) eqn:Hvt; [|discriminate]. simpl String.eqb. cbv iota.
    destruct (typeof v =? "number") eqn:Hty; [|discriminate].
    apply String.eqb_eq, typeof_number in Hty as [x ->]. eauto.
  - now apply get_no_throw in Hv.
  - unfold required. cbv zeta. rewrite Hv. discriminate.
Qed.

Ltac host_error := right; left; eexists; reflexivity.
Ltac field_rejection :=
  right; right; right; right; eexists; split; [reflexivity | assumption].

Lemma validate_cases (newDoc oldDoc userCtx : value) (g : globals) :
  validate newDoc oldDoc userCtx g = (Normal tt, g)
  \/ (exists e, validate newDoc oldDoc userCtx g = (HostError e, g))
  \/ (validate newDoc oldDoc userCtx g = (Throw (unauthorized not_admin), g)
      /\ truthy oldDoc = true /\ user_is userCtx "admin" = Normal false)
  \/ (validate newDoc oldDoc userCtx g = (Throw (forbidden bad_order), g)
      /\ authorized oldDoc userCtx)
  \/ (exists msg, validate newDoc oldDoc userCtx g = rejected msg
      /\ authorized oldDoc userCtx).
Proof.
  unfold validate. rewrite bind_eval.
  destruct (get newDoc "type") as [t|v|e] eqn:Ht;
    [ | now apply get_no_throw in Ht | host_error ].
  rewrite bind_eval.
  destruct (eq_listener_info t) as [[|]|v|e] eqn:Hsame;
    [ | now left | now apply eq_listener_info_no_throw in Hsame
      | host_error ].
  cbn [negb]. rewrite bind_run.
  match goal with
  | |- context [match ?step g with _ => _ end] =>
      assert (Hstep : (step g = (Normal false, g) /\ authorized oldDoc userCtx)
                      \/ (step g = (Normal true, g) /\ truthy oldDoc = true
                          /\ user_is userCtx "admin" = Normal false)
                      \/ (exists e, step g = (HostError e, g)))
  end.
  { destruct (truthy oldDoc) eqn:Hold; [|left; split; [reflexivity | now left]].
    rewrite bind_eval.
    destruct (user_is userCtx "admin") as [[|]|v|e] eqn:Hadmin.
    - left. split; [reflexivity | now right].
    - right; left. auto.
    - now apply user_is_no_throw in Hadmin.
    - right; right. eauto. }
  destruct Hstep as [[-> Hauth]|[(-> & Hold & Hadmin)|[e ->]]];
    [ | now (right; right; left) | host_error ].
  rewrite bind_run.
  destruct (required_cases newDoc "time_created" (Some "number") Undefined g)
    as [->|[[msg ->]|[e ->]]];
    [ | field_rejection | host_error ].
  rewrite bind_run.
  destruct (required_cases newDoc "time_uploaded" (Some "number") Undefined g)
    as [->|[[msg ->]|[e ->]]];
    [ | field_rejection | host_error ].
  rewrite bind_eval.
  destruct (get newDoc "time_created") as [created|v|e] eqn:Hc;
    [ | now apply get_no_throw in Hc | host_error ].
  rewrite bind_eval.
  destruct (get newDoc "time_uploaded") as [uploaded|v|e] eqn:Hu;
    [ | now apply get_no_throw in Hu | host_error ].
  destruct (ge created uploaded); [now (right; right; right; left)|].
  rewrite bind_run.
  destruct (required_cases newDoc "data" (Some "object") Undefined g)
    as [->|[[msg ->]|[e ->]]];
    [ | field_rejection | host_error ].
  rewrite bind_eval.
  destruct (get newDoc "data") as [data|v|e] eqn:Hd;
    [ | now apply get_no_throw in Hd | host_error ].
  destruct (required_cases newDoc "callsign" (Some "string") data g)
    as [->|[[msg ->]|[e ->]]];
    [ now left | field_rejection | host_error ].
Qed.

(* ================================================================== *)
(** * Independence from the globals                                    *)
(* ================================================================== *)

Lemma stateless_eval {A : Type} (c : completion A) : stateless (eval c).
Proof. intros g1 g2. reflexivity. Qed.

Lemma stateless_ret {A : Type} (a : A) : stateless (ret a).
Proof. intros g1 g2. reflexivity. Qed.

Lemma stateless_throw {A : Type} (v : value) : stateless (@throw A v).
Proof. intros g1 g2. reflexivity. Qed.

Lemma stateless_bind {A B : Type} (m : M A) (k : A -> M B) :
  stateless m -> (forall a, stateless (k a)) -> stateless (bind m k).
Proof.
  intros Hm Hk g1 g2. rewrite !bind_run. specialize (Hm g1 g2).
  unfold outcome in *.
  destruct (m g1) as [[a1|v1|e1] h1], (m g2) as [[a2|v2|e2] h2];
    simpl in Hm; try discriminate; try (injection Hm as ->); try reflexivity.
  apply Hk.
Qed.

(** [required] writes [message] before it reads it. *)
Lemma stateless_required (newDoc : value) (field : string)
    (type : option string) (inside : value) :
  stateless (required newDoc field type inside).
Proof.
  intros g1 g2. unfold required. cbv zeta.
  destruct (get (default newDoc inside) field) as [v|v|e]; try reflexivity.
  cbv [bind eval set_message get_message throw ret message outcome].
  destruct (truthy v); [|reflexivity].
  destruct type as [t|]; [|reflexivity].
  destruct (truthy (Str t) && negb (typeof v =? t)); reflexivity.
Qed.

Lemma stateless_validate (newDoc oldDoc userCtx : value) :
  stateless (validate newDoc oldDoc userCtx).
Proof.
  unfold validate.
  repeat first
    [ apply stateless_eval | apply stateless_ret | apply stateless_throw
    | apply stateless_required
    | apply stateless_bind; [|intros ?]
    | match goal with
      | |- stateless (if ?b then _ else _) => destruct b
      end ].
Qed.

(* ================================================================== *)
(** * The authorization step                                           *)
(* ================================================================== *)

(** An edit by a requester who is not an administrator is refused before any
    field is looked at. *)
Lemma validate_unauthorized (newDoc oldDoc userCtx : value) (g : globals) :
  get newDoc "type" = Normal (Str listener_info) ->
  truthy oldDoc = true ->
  user_is userCtx "admin" = Normal false ->
  validate newDoc oldDoc userCtx g = (Throw (unauthorized not_admin), g).
Proof.
  intros Htype Hold Hadmin. unfold validate.
  rewrite bind_eval, Htype, bind_eval. simpl eq_listener_info. cbn [negb].
  rewrite Hold, bind_run, bind_eval, Hadmin. reflexivity.
Qed.

(** A host error of the role lookup ends the hook. *)
Lemma validate_lookup_error (newDoc oldDoc userCtx : value) (e : host_error)
    (g : globals) :
  get newDoc "type" = Normal (Str listener_info) ->
  truthy oldDoc = true ->
  user_is userCtx "admin" = HostError e ->
  validate newDoc oldDoc userCtx g = (HostError e, g).
Proof.
  intros Htype Hold Hadmin. unfold validate.
  rewrite bind_eval, Htype, bind_eval. simpl eq_listener_info. cbn [negb].
  rewrite Hold, bind_run, bind_eval, Hadmin. reflexivity.
Qed.

(** The messages of [required] are not the message of the ordering check. *)
Lemma presence_not_order (field : string) (v : value) :
  presence field v <> Some bad_order.
Proof. unfold presence. destruct (truthy v); discriminate. Qed.

Lemma type_tag_not_order (field expected : string) (v : value) :
  type_tag field expected v <> Some bad_order.
Proof. unfold type_tag. destruct (typeof v =? expected); discriminate. Qed.

Lemma first_failure_not_order (cs : list (option string)) :
  Forall (fun c => c <> Some bad_order) cs -> first_failure cs <> Some bad_order.
Proof.
  induction 1 as [|[msg|] cs Hc _ IH]; simpl; [discriminate | assumption | assumption].
Qed.

(* ================================================================== *)
(** * The properties of the specification                              *)
(* ================================================================== *)

(** C1.  An edit of a [listener_info] document ([oldDoc] present) by a
    requester whose roles do not contain ["admin"] is rejected with
    [{unauthorized: "Only administrators may edit listener_info docs."}],
    whatever the fields of the document are. *)
Theorem non_admin_edit_unauthorized
    (newDoc oldDoc userCtx : value) (rs : list value) (g : globals) :
  get newDoc "type" = Normal (Str "listener_info") ->
  truthy oldDoc = true ->
  get userCtx "roles" = Normal (Arr rs) ->
  ~ In (Str "admin") rs ->
  validate newDoc oldDoc userCtx g
  = (Throw (Obj [("unauthorized",
                  Str "Only administrators may edit listener_info docs.")]), g).
Proof.
  intros Htype Hold Hroles Hnot.
  apply validate_unauthorized; try assumption.
  rewrite (user_is_array _ _ _ Hroles). f_equal. now apply existsb_not_in.
Qed.

Lemma non_admin_edit_unauthorized_witness :
  validate (listener 200 100 (Obj [])) (Obj []) (roles ["user"]) fresh
  = (Throw (Obj [("unauthorized",
                  Str "Only administrators may edit listener_info docs.")]),
     fresh).
Proof.
  apply (non_admin_edit_unauthorized _ _ _ [Str "user"]).
  - reflexivity.
  - reflexivity.
  - reflexivity.
  - simpl. intros [H|[]]. discriminate H.
Defined.

(** C2, as the code has it.  The type test is the loose comparison [!=]: a
    document passes untouched when its [type] is neither the string
    ["listener_info"] nor that string inside one-element arrays, and can be
    converted to a primitive at all. *)
Theorem other_types_pass
    (newDoc oldDoc userCtx type : value) (g : globals) :
  get newDoc "type" = Normal type ->
  wraps_listener_info type = false ->
  ToString type <> None ->
  validate newDoc oldDoc userCtx g = (Normal tt, g).
Proof.
  intros Htype Hwraps Htext. unfold validate.
  rewrite bind_eval, Htype, bind_eval, (eq_listener_info_wraps _ Htext), Hwraps.
  reflexivity.
Qed.

Lemma other_types_pass_witness :
  validate (Obj [("type", Arr [Str "listener"; Str "info"]); ("data", Num 7)])
           (Obj []) Undefined fresh
  = (Normal tt, fresh).
Proof.
  apply (other_types_pass _ _ _ (Arr [Str "listener"; Str "info"])).
  - reflexivity.
  - reflexivity.
  - simpl. discriminate.
Defined.

(** The type [["listener_info"]] is not the string ["listener_info"], and the
    document is checked, and rejected, as a [listener_info] document. *)
Lemma array_type_is_checked :
  get (Obj [("type", Arr [Str "listener_info"])]) "type"
    <> Normal (Str "listener_info")
  /\ outcome (validate (Obj [("type", Arr [Str "listener_info"])])
                       Null (roles []) fresh)
     = Throw (Obj [("forbidden", Str "Must have a `time_created` field.")]).
Proof. split; [discriminate | reflexivity]. Qed.

(** A type that cannot be converted to a primitive stops the comparison with
    a TypeError. *)
Example unconvertible_type :
  validate (Obj [("type", Obj [("toString", Null)])]) Null (roles []) fresh
  = (HostError TypeError, fresh).
Proof. reflexivity. Qed.

(** C3.  For a [listener_info] document that passed the authorization step
    and whose two timestamps are truthy numbers, the rejection
    [{forbidden: "Document creation date is after upload date."}] happens
    exactly when [time_created >= time_uploaded], and an accepted write has
    [time_created < time_uploaded]. *)
Theorem ordering_rejection
    (newDoc oldDoc userCtx : value) (created uploaded : float) (g : globals) :
  get newDoc "type" = Normal (Str "listener_info") ->
  authorized oldDoc userCtx ->
  get newDoc "time_created" = Normal (Num created) ->
  truthy (Num created) = true ->
  get newDoc "time_uploaded" = Normal (Num uploaded) ->
  truthy (Num uploaded) = true ->
  (outcome (validate newDoc oldDoc userCtx g)
   = Throw (Obj [("forbidden",
                  Str "Document creation date is after upload date.")])
   <-> geb created uploaded = true)
  /\ (outcome (validate newDoc oldDoc userCtx g) = Normal tt ->
      PrimFloat.ltb created uploaded = true).
Proof.
  intros Htype Hauth Hc Tc Hu Tu.
  assert (Hrun : outcome (validate newDoc oldDoc userCtx g)
                 = verdict (if geb created uploaded then Some bad_order
                            else first_failure (skipn 5 (checks newDoc)))).
  { rewrite (validate_fields _ _ _ g Htype Hauth). f_equal.
    unfold checks, field_of. rewrite Hc, Hu. cbv zeta.
    unfold presence, ordering. rewrite Tc, Tu. simpl ge.
    destruct (geb created uploaded); reflexivity. }
  rewrite Hrun. destruct (geb created uploaded) eqn:Hge.
  - split; [split; reflexivity | discriminate].
  - split.
    + split; [|discriminate]. intros H. exfalso.
      apply (first_failure_not_order (skipn 5 (checks newDoc))).
      * repeat constructor;
          first [apply presence_not_order | apply type_tag_not_order].
      * destruct (first_failure (skipn 5 (checks newDoc)));
          [now injection H as -> | discriminate].
    + intros _. apply geb_false_ltb; auto using truthy_number.
Qed.

Lemma ordering_rejection_witness :
  (outcome (validate (listener 200 100 station) Undefined (roles []) fresh)
   = Throw (Obj [("forbidden",
                  Str "Document creation date is after upload date.")])
   <-> geb 200 100 = true)
  /\ (outcome (validate (listener 200 100 station) Undefined (roles []) fresh)
      = Normal tt ->
      PrimFloat.ltb 200 100 = true).
Proof.
  apply (ordering_rejection (listener 200 100 station) Undefined (roles [])
           200 100 fresh).
  - reflexivity.
  - left. reflexivity.
  - reflexivity.
  - reflexivity.
  - reflexivity.
  - reflexivity.
Defined.



(** C5.  For a [listener_info] document that passed the authorization step,
    the result is that of the first failing check in the order
    [time_created] (presence, type), [time_uploaded] (presence, type),
    ordering, [data] (presence, type), [data.callsign] (presence, type), and
    the write is accepted when no check fails. *)
Theorem first_failing_check_wins
    (newDoc oldDoc userCtx : value) (g : globals) :
  get newDoc "type" = Normal (Str "listener_info") ->
  authorized oldDoc userCtx ->
  outcome (validate newDoc oldDoc userCtx g)
  = verdict (first_failure (checks newDoc)).
Proof. apply validate_fields. Qed.

Lemma first_failing_check_wins_witness :
  outcome (validate (listener 200 100 (Str "G0ABC")) Undefined (roles []) fresh)
  = Throw (Obj [("forbidden",
                 Str "Document creation date is after upload date.")]).
Proof.
  apply (first_failing_check_wins (listener 200 100 (Str "G0ABC")) Undefined
           (roles []) fresh).
  - reflexivity.
  - left. reflexivity.
Defined.

(** C6.  On a creation ([oldDoc] absent) the requester is not consulted: the
    run is the same for every user context, and for a [listener_info]
    document its result is that of the field checks alone. *)
Theorem creation_ignores_requester
    (newDoc oldDoc : value) (g : globals) :
  truthy oldDoc = false ->
  (forall userCtx userCtx' : value,
      validate newDoc oldDoc userCtx g = validate newDoc oldDoc userCtx' g)
  /\ (get newDoc "type" = Normal (Str "listener_info") ->
      forall userCtx : value,
        outcome (validate newDoc oldDoc userCtx g)
        = verdict (first_failure (checks newDoc))).
Proof.
  intros Hold. split.
  - intros userCtx userCtx'. unfold validate. rewrite Hold. reflexivity.
  - intros Htype userCtx. apply validate_fields; [assumption | now left].
Qed.

Lemma creation_ignores_requester_witness :
  (forall userCtx userCtx' : value,
      validate (listener 100 200 station) Null userCtx fresh
      = validate (listener 100 200 station) Null userCtx' fresh)
  /\ (get (listener 100 200 station) "type" = Normal (Str "listener_info") ->
      forall userCtx : value,
        outcome (validate (listener 100 200 station) Null userCtx fresh)
        = verdict (first_failure (checks (listener 100 200 station)))).
Proof.
  apply creation_ignores_requester. reflexivity.
Defined.

(** C7.  Whatever the hook throws is an object with the single key
    [unauthorized] or [forbidden] and a string message: [unauthorized], with
    its fixed message, exactly when a requester who is not an administrator
    edits a document, and [forbidden] in every other rejection. *)
Theorem rejections_are_structured
    (newDoc oldDoc userCtx thrown : value) (g : globals) :
  outcome (validate newDoc oldDoc userCtx g) = Throw thrown ->
  (thrown = Obj [("unauthorized",
                  Str "Only administrators may edit listener_info docs.")]
   /\ truthy oldDoc = true /\ user_is userCtx "admin" = Normal false)
  \/ (exists msg : string,
         thrown = Obj [("forbidden", Str msg)]
         /\ authorized oldDoc userCtx).
Proof.
  destruct (validate_cases newDoc oldDoc userCtx g)
    as [H|[[e H]|[(H & Hold & Hadmin)|[[H Hauth]|(msg & H & Hauth)]]]];
    rewrite H; simpl; intros [= <-].
  - left. auto.
  - right. exists bad_order. auto.
  - right. exists msg. auto.
Qed.

Lemma rejections_are_structured_witness :
  (Obj [("forbidden", Str "Must have a `callsign` field.")]
   = Obj [("unauthorized",
           Str "Only administrators may edit listener_info docs.")]
   /\ truthy Undefined = true /\ user_is (roles []) "admin" = Normal false)
  \/ (exists msg : string,
         Obj [("forbidden", Str "Must have a `callsign` field.")]
         = Obj [("forbidden", Str msg)]
         /\ authorized Undefined (roles [])).
Proof.
  apply (rejections_are_structured (listener 100 200 (Obj [])) Undefined
           (roles []) _ fresh).
  reflexivity.
Defined.

(** C8.  The result of the hook is a function of its three arguments alone:
    two calls with the same documents and user context end the same way,
    whatever the global state each of them starts from. *)
Theorem validate_is_deterministic
    (newDoc oldDoc userCtx : value) (g1 g2 : globals) :
  outcome (validate newDoc oldDoc userCtx g1)
  = outcome (validate newDoc oldDoc userCtx g2).
Proof. apply stateless_validate. Qed.

(** C9, at the input on which it fails.  A rejection by [required] assigns the
    undeclared variable [message], a property of the global object: after the
    call the global state holds the message. *)
Theorem required_rejection_writes_global :
  validate (Obj [("type", Str "listener_info")]) Null (roles []) fresh
  = (Throw (Obj [("forbidden", Str "Must have a `time_created` field.")]),
     {| message := Some (Str "Must have a `time_created` field.") |}).
Proof. reflexivity. Qed.

(** C10, as the code has it.  On an edit of a [listener_info] document the
    role lookup is [userCtx.roles.indexOf]: it is a TypeError when the roles
    are absent or neither an array nor a string, and never a host error when
    they are an array or a string (a string is searched for the substring). *)
Theorem roles_lookup_precondition
    (newDoc oldDoc userCtx : value) (g : globals) :
  get newDoc "type" = Normal (Str "listener_info") ->
  truthy oldDoc = true ->
  ((forall r : value, get userCtx "roles" = Normal r ->
       (forall rs, r <> Arr rs) /\ (forall s, r <> Str s)) ->
   validate newDoc oldDoc userCtx g = (HostError TypeError, g))
  /\ (forall r : value, get userCtx "roles" = Normal r ->
        (exists rs, r = Arr rs) \/ (exists s, r = Str s) ->
        forall e : host_error,
          outcome (validate newDoc oldDoc userCtx g) <> HostError e).
Proof.
  intros Htype Hold. split.
  - intros Hroles. apply validate_lookup_error; try assumption.
    unfold user_is. destruct (get userCtx "roles") as [r|v|e] eqn:Hr.
    + destruct (Hroles r eq_refl) as [Harr Hstr].
      destruct r; try reflexivity; [now elim (Hstr s) | now elim (Harr items)].
    + now apply get_no_throw in Hr.
    + destruct userCtx; simpl in Hr; congruence.
  - intros r Hr Hshape e.
    assert (Hadmin : exists b, user_is userCtx "admin" = Normal b).
    { unfold user_is. rewrite Hr.
      destruct Hshape as [[rs ->]|[s ->]]; simpl; eauto. }
    destruct Hadmin as [[|] Hadmin].
    + rewrite (validate_fields _ _ _ g Htype (or_intror Hadmin)).
      destruct (first_failure (checks newDoc)); discriminate.
    + rewrite (validate_unauthorized _ _ _ g Htype Hold Hadmin). discriminate.
Qed.

Lemma roles_lookup_precondition_witness :
  validate (listener 100 200 station) (Obj []) (Obj [("roles", Num 7)]) fresh
  = (HostError TypeError, fresh).
Proof.
  refine (proj1 (roles_lookup_precondition (listener 100 200 station) (Obj [])
                   (Obj [("roles", Num 7)]) fresh _ _) _).
  - reflexivity.
  - reflexivity.
  - intros r [= <-]. split; discriminate.
Defined.

(** Roles that are a string and not an array: the lookup succeeds, and the
    edit is refused with the structured rejection. *)
Lemma string_roles_are_searched :
  get (Obj [("roles", Str "user")]) "roles" = Normal (Str "user")
  /\ outcome (validate (listener 100 200 station) (Obj [])
                       (Obj [("roles", Str "user")]) fresh)
     = Throw (Obj [("unauthorized",
                    Str "Only administrators may edit listener_info docs.")]).
Proof. split; reflexivity. Qed.

(* ================================================================== *)
(** * Further properties                                               *)
(* ================================================================== *)

Lemma accepted_is_authorized (newDoc oldDoc userCtx : value) (g : globals) :
  get newDoc "type" = Normal (Str listener_info) ->
  outcome (validate newDoc oldDoc userCtx g) = Normal tt ->
  authorized oldDoc userCtx.
Proof.
  intros Htype Hok. destruct (truthy oldDoc) eqn:Hold; [|now left].
  destruct (user_is userCtx "admin") as [[|]|v|e] eqn:Hadmin.
  - now right.
  - rewrite (validate_unauthorized _ _ _ g Htype Hold Hadmin) in Hok. discriminate.
  - now apply user_is_no_throw in Hadmin.
  - rewrite (validate_lookup_error _ _ _ e g Htype Hold Hadmin) in Hok. discriminate.
Qed.

Lemma first_failure_none (cs : list (option string)) :
  first_failure cs = None -> Forall (fun c => c = None) cs.
Proof.
  induction cs as [|[msg|] cs IH]; simpl; [constructor | discriminate | auto].
Qed.

Lemma presence_passed (field : string) (v : value) :
  presence field v = None -> truthy v = true.
Proof. unfold presence. now destruct (truthy v). Qed.

Lemma type_tag_passed (field expected : string) (v : value) :
  type_tag field expected v = None -> typeof v = expected.
Proof.
  unfold type_tag. destruct (String.eqb_spec (typeof v) expected); easy.
Qed.

(** X1.  The invariant of accepted writes (section 3): an accepted
    [listener_info] document has numeric timestamps with
    [time_created < time_uploaded], a [data] object and a non-empty string
    [data.callsign]; and the write is a creation or comes from an
    administrator. *)
Theorem accepted_write_invariant
    (newDoc oldDoc userCtx : value) (g : globals) :
  get newDoc "type" = Normal (Str "listener_info") ->
  outcome (validate newDoc oldDoc userCtx g) = Normal tt ->
  authorized oldDoc userCtx
  /\ exists (created uploaded : float) (data : value) (callsign : string),
      get newDoc "time_created" = Normal (Num created)
      /\ get newDoc "time_uploaded" = Normal (Num uploaded)
      /\ PrimFloat.ltb created uploaded = true
      /\ get newDoc "data" = Normal data
      /\ typeof data = "object" /\ data <> Null
      /\ get data "callsign" = Normal (Str callsign)
      /\ callsign <> "".
Proof.
  intros Htype Hok.
  pose proof (accepted_is_authorized _ _ _ g Htype Hok) as Hauth.
  split; [assumption|].
  rewrite (validate_fields _ _ _ g Htype Hauth) in Hok.
  assert (Hall : Forall (fun c => c = None) (checks newDoc)).
  { apply first_failure_none.
    destruct (first_failure (checks newDoc)); [discriminate | reflexivity]. }
  destruct (listener_is_object _ Htype) as (props & -> & _).
  unfold checks, field_of in Hall. simpl get in Hall. cbv zeta in Hall.
  apply Forall_cons_iff in Hall as [Pc Hall].
  apply Forall_cons_iff in Hall as [Tc Hall].
  apply Forall_cons_iff in Hall as [Pu Hall].
  apply Forall_cons_iff in Hall as [Tu Hall].
  apply Forall_cons_iff in Hall as [Ho Hall].
  apply Forall_cons_iff in Hall as [Pd Hall].
  apply Forall_cons_iff in Hall as [Td Hall].
  apply Forall_cons_iff in Hall as [Ps Hall].
  apply Forall_cons_iff in Hall as [Ts _].
  apply presence_passed in Pc, Pu, Pd, Ps.
  apply type_tag_passed in Tc, Tu, Td, Ts.
  apply typeof_number in Tc as [created Hc], Tu as [uploaded Hu].
  rewrite Hc, Hu in *.
  unfold ordering in Ho. simpl ge in Ho.
  destruct (geb created uploaded) eqn:Hge; [discriminate Ho|].
  destruct (lookup "data" props) as [| |b|x|s|items|dprops] eqn:Hd;
    try discriminate.
  apply typeof_string in Ts as [callsign Hcs].
  exists created, uploaded, (Obj dprops), callsign. simpl in Hcs, Ps |- *.
  repeat split; simpl; rewrite ?Hc, ?Hu, ?Hd, ?Hcs;
    try reflexivity; try discriminate.
  - apply geb_false_ltb; auto using truthy_number.
  - intros ->. rewrite Hcs in Ps. discriminate Ps.
Qed.

Lemma accepted_write_invariant_witness :
  authorized Undefined (roles [])
  /\ exists (created uploaded : float) (data : value) (callsign : string),
      get (listener 100 200 station) "time_created" = Normal (Num created)
      /\ get (listener 100 200 station) "time_uploaded" = Normal (Num uploaded)
      /\ PrimFloat.ltb created uploaded = true
      /\ get (listener 100 200 station) "data" = Normal data
      /\ typeof data = "object" /\ data <> Null
      /\ get data "callsign" = Normal (Str callsign)
      /\ callsign <> "".
Proof.
  apply (accepted_write_invariant (listener 100 200 station) Undefined
           (roles []) fresh).
  - reflexivity.
  - reflexivity.
Defined.

(** X2.  An edit by an administrator goes on to the field checks, which alone
    decide. *)
Theorem admin_edit_runs_field_checks
    (newDoc oldDoc userCtx : value) (rs : list value) (g : globals) :
  get newDoc "type" = Normal (Str "listener_info") ->
  get userCtx "roles" = Normal (Arr rs) ->
  In (Str "admin") rs ->
  outcome (validate newDoc oldDoc userCtx g)
  = verdict (first_failure (checks newDoc)).
Proof.
  intros Htype Hroles Hin. apply validate_fields; [assumption|].
  right. rewrite (user_is_array _ _ _ Hroles). f_equal. now apply existsb_in.
Qed.

Lemma admin_edit_runs_field_checks_witness :
  outcome (validate (listener 100 200 station) (Obj [])
             (roles ["admin"; "user"]) fresh)
  = Normal tt.
Proof.
  apply (admin_edit_runs_field_checks (listener 100 200 station) (Obj [])
           (roles ["admin"; "user"]) [Str "admin"; Str "user"] fresh).
  - reflexivity.
  - reflexivity.
  - left. reflexivity.
Defined.

(** The messages of [required] are not the message of the ordering test. *)
Lemma required_message_not_order (field msg : string) :
  required_message field msg -> msg <> bad_order.
Proof. intros [->|(actual & expected & ->)]; discriminate. Qed.

(** [required_cases], with the message of the rejection. *)
Lemma required_rejections (newDoc : value) (field : string)
    (type : option string) (inside : value) (g : globals) :
  required newDoc field type inside g = (Normal tt, g)
  \/ (exists msg, required newDoc field type inside g = rejected msg
                  /\ required_message field msg)
  \/ (exists e, required newDoc field type inside g = (HostError e, g)).
Proof.
  destruct (get (default newDoc inside) field) as [v|v|e] eqn:Hv.
  - destruct type as [t|].
    + rewrite (required_run _ _ _ _ v g Hv). unfold presence, type_tag.
      destruct (truthy v).
      * destruct (t =? ""); [auto|].
        destruct (typeof v =? t); [auto|].
        right; left. eexists; split; [reflexivity|]. right. eauto.
      * right; left. eexists; split; [reflexivity|]. now left.
    + unfold required. cbv zeta. rewrite Hv.
      cbv [bind eval set_message get_message throw ret message].
      destruct (truthy v); simpl; [auto|]. right; left.
      exists (must_have field). split; [reflexivity | now left].
  - now apply get_no_throw in Hv.
  - right; right. exists e. unfold required. cbv zeta. now rewrite Hv.
Qed.

Ltac required_rejection :=
  right; right; right; right; do 2 eexists; split; [reflexivity | eassumption].

(** [validate_cases], with the message of a rejection by [required]. *)
Lemma validate_rejections (newDoc oldDoc userCtx : value) (g : globals) :
  validate newDoc oldDoc userCtx g = (Normal tt, g)
  \/ (exists e, validate newDoc oldDoc userCtx g = (HostError e, g))
  \/ validate newDoc oldDoc userCtx g = (Throw (unauthorized not_admin), g)
  \/ validate newDoc oldDoc userCtx g = (Throw (forbidden bad_order), g)
  \/ (exists field msg, validate newDoc oldDoc userCtx g = rejected msg
                        /\ required_message field msg).
Proof.
  unfold validate. rewrite bind_eval.
  destruct (get newDoc "type") as [t|v|e] eqn:Ht;
    [ | now apply get_no_throw in Ht | host_error ].
  rewrite bind_eval.
  destruct (eq_listener_info t) as [[|]|v|e] eqn:Hsame;
    [ | now left | now apply eq_listener_info_no_throw in Hsame | host_error ].
  cbn [negb]. rewrite bind_run.
  match goal with
  | |- context [match ?step g with _ => _ end] =>
      assert (Hstep : step g = (Normal false, g) \/ step g = (Normal true, g)
                      \/ (exists e, step g = (HostError e, g)))
  end.
  { destruct (truthy oldDoc); [|now left].
    rewrite bind_eval.
    destruct (user_is userCtx "admin") as [[|]|v|e] eqn:Hadmin.
    - now left.
    - right; now left.
    - now apply user_is_no_throw in Hadmin.
    - right; right. eauto. }
  destruct Hstep as [->|[->|[e ->]]];
    [ | now (right; right; left) | host_error ].
  rewrite bind_run.
  destruct (required_rejections newDoc "time_created" (Some "number") Undefined g)
    as [->|[(msg & -> & Hmsg)|[e ->]]];
    [ | required_rejection | host_error ].
  rewrite bind_run.
  destruct (required_rejections newDoc "time_uploaded" (Some "number") Undefined g)
    as [->|[(msg & -> & Hmsg)|[e ->]]];
    [ | required_rejection | host_error ].
  rewrite bind_eval.
  destruct (get newDoc "time_created") as [created|v|e] eqn:Hc;
    [ | now apply get_no_throw in Hc | host_error ].
  rewrite bind_eval.
  destruct (get newDoc "time_uploaded") as [uploaded|v|e] eqn:Hu;
    [ | now apply get_no_throw in Hu | host_error ].
  destruct (ge created uploaded); [now (right; right; right; left)|].
  rewrite bind_run.
  destruct (required_rejections newDoc "data" (Some "object") Undefined g)
    as [->|[(msg & -> & Hmsg)|[e ->]]];
    [ | required_rejection | host_error ].
  rewrite bind_eval.
  destruct (get newDoc "data") as [data|v|e] eqn:Hd;
    [ | now apply get_no_throw in Hd | host_error ].
  destruct (required_rejections newDoc "callsign" (Some "string") data g)
    as [->|[(msg & -> & Hmsg)|[e ->]]];
    [ now left | required_rejection | host_error ].
Qed.

(** X3.  What the hook does to the global state, read off its result.  A
    [forbidden] rejection with another message than that of the ordering test
    is a rejection by [required], with one of its two messages, and it leaves
    that message in the global [message].  On every other path (an accepted
    write, a host error, the [unauthorized] rejection, the ordering rejection)
    the global state is as the hook found it. *)
Theorem globals_change_only_on_field_rejection
    (newDoc oldDoc userCtx : value) (g : globals) :
  (forall msg : string,
      outcome (validate newDoc oldDoc userCtx g)
      = Throw (Obj [("forbidden", Str msg)]) ->
      msg <> "Document creation date is after upload date." ->
      final (validate newDoc oldDoc userCtx g) = {| message := Some (Str msg) |}
      /\ exists field : string,
           msg = "Must have a `" ++ field ++ "` field."
           \/ exists actual expected : string,
                msg = "Wrong type for `" ++ field ++ "` (" ++ actual
                      ++ "), should be " ++ expected ++ ".")
  /\ ((forall msg : string,
         outcome (validate newDoc oldDoc userCtx g)
         = Throw (Obj [("forbidden", Str msg)]) ->
         msg = "Document creation date is after upload date.") ->
      final (validate newDoc oldDoc userCtx g) = g).
Proof.
  destruct (validate_rejections newDoc oldDoc userCtx g)
    as [H|[[e H]|[H|[H|(field & msg & H & Hmsg)]]]]; rewrite H; simpl; split;
    try (intros msg' [= <-] Hne; now elim Hne); try discriminate;
    try reflexivity.
  - intros msg' [= <-] _. split; [reflexivity|]. exists field. exact Hmsg.
  - intros Honly. exfalso.
    apply (required_message_not_order field msg Hmsg). now apply Honly.
Qed.

Lemma globals_change_only_on_field_rejection_witness :
  final (validate (listener 100 200 (Obj [])) Null (roles []) fresh)
  = {| message := Some (Str "Must have a `callsign` field.") |}.
Proof.
  refine (proj1 (proj1 (globals_change_only_on_field_rejection
                          (listener 100 200 (Obj [])) Null (roles []) fresh)
                   "Must have a `callsign` field." _ _)).
  - reflexivity.
  - discriminate.
Defined.

(* ================================================================== *)
(** * The hook on every document that passes the type test            *)
(* ================================================================== *)

(** A type that [==] takes for the tag belongs to an object. *)
Lemma checked_is_object (newDoc type : value) :
  get newDoc "type" = Normal type ->
  eq_listener_info type = Normal true ->
  exists props, newDoc = Obj props.
Proof.
  destruct newDoc; simpl; try discriminate; try (intros [= <-]; discriminate).
  eauto.
Qed.

(** [validate_fields], for every type the test lets in. *)
Lemma validate_checked (newDoc oldDoc userCtx type : value) (g : globals) :
  get newDoc "type" = Normal type ->
  eq_listener_info type = Normal true ->
  authorized oldDoc userCtx ->
  outcome (validate newDoc oldDoc userCtx g) = verdict (first_failure (checks newDoc)).
Proof.
  intros Htype Hsame Hauth.
  destruct (checked_is_object _ _ Htype Hsame) as (props & ->).
  unfold validate. rewrite bind_eval, Htype, bind_eval, Hsame. cbn [negb].
  rewrite bind_run, (authorized_run _ _ g Hauth). cbv iota beta.
  unfold checks, field_of. simpl get. cbv zeta.
  remember (lookup "time_created" props) as created eqn:Hc.
  remember (lookup "time_uploaded" props) as uploaded eqn:Hu.
  remember (lookup "data" props) as data eqn:Hd.
  rewrite bind_run, (required_run _ _ _ _ created) by (simpl; congruence).
  simpl first_failure.
  destruct (presence "time_created" created); [reflexivity|].
  simpl String.eqb. cbv iota.
  destruct (type_tag "time_created" "number" created); [reflexivity|].
  cbv beta iota.
  rewrite bind_run, (required_run _ _ _ _ uploaded) by (simpl; congruence).
  destruct (presence "time_uploaded" uploaded); [reflexivity|].
  simpl String.eqb. cbv iota.
  destruct (type_tag "time_uploaded" "number" uploaded); [reflexivity|].
  cbv beta iota. rewrite !bind_eval. unfold ordering.
  destruct (ge created uploaded); [reflexivity|].
  rewrite bind_run, (required_run _ _ _ _ data) by (simpl; congruence).
  destruct (presence "data" data) eqn:Hpresent; [reflexivity|].
  simpl String.eqb. cbv iota.
  destruct (type_tag "data" "object" data) eqn:Htag; [reflexivity|].
  cbv beta iota. rewrite bind_eval.
  assert (Hdata : exists v, get data "callsign" = Normal v
                            /\ default (Obj props) data = data).
  { clear Hd. destruct data; try discriminate; simpl; eauto. }
  destruct Hdata as (v & Hv & Hdef). rewrite Hv.
  rewrite (required_run _ _ _ _ v) by now rewrite Hdef.
  destruct (presence "callsign" v); [reflexivity|].
  simpl String.eqb. cbv iota.
  destruct (type_tag "callsign" "string" v); reflexivity.
Qed.

(** The results of the hook's expressions, when they are host errors, are
    TypeErrors. *)
Lemma get_error (o : value) (k : string) (e : host_error) :
  get o k = HostError e -> e = TypeError /\ (o = Undefined \/ o = Null).
Proof. destruct o; simpl; intros [= <-]; auto. Qed.

Lemma eq_listener_info_error (t : value) (e : host_error) :
  eq_listener_info t = HostError e -> e = TypeError /\ ToString t = None.
Proof.
  destruct t; try discriminate; unfold eq_listener_info;
    destruct (ToString _); try discriminate; intros [= <-]; auto.
Qed.

Lemma user_is_error (userCtx : value) (role : string) (e : host_error) :
  user_is userCtx role = HostError e -> e = TypeError.
Proof.
  unfold user_is. destruct (get userCtx "roles") as [r|v|e'] eqn:Hr.
  - destruct r; simpl; intros [= <-]; reflexivity.
  - discriminate.
  - intros [= <-]. now apply get_error in Hr.
Qed.

(** A wrapped tag has a text, and [==] takes it for the tag. *)
Lemma wraps_eq_listener_info (v : value) :
  wraps_listener_info v = true -> eq_listener_info v = Normal true.
Proof.
  intros Hw. rewrite eq_listener_info_wraps; [now rewrite Hw|].
  revert v Hw. fix IH 1. intros [| |b|x|s|items|props]; simpl; try discriminate.
  destruct items as [|e [|e' rest]]; try discriminate.
  intros Hw. pose proof (IH e Hw) as IHe. clear IH.
  destruct e; try discriminate; exact IHe.
Qed.

(** [x >= x] for every number but NaN. *)
Lemma SFcompare_refl (x : spec_float) :
  x <> S754_nan -> SFcompare x x = Some Eq.
Proof.
  destruct x as [s|s| |s m e]; simpl; try congruence; intros _.
  - now destruct s.
  - rewrite Z.compare_refl, Pos.compare_cont_refl. now destruct s.
Qed.

Lemma geb_refl (x : float) : PrimFloat.is_nan x = false -> geb x x = true.
Proof.
  intros Hx. apply is_nan_false in Hx. unfold geb. rewrite leb_spec.
  unfold SFleb. now rewrite SFcompare_refl.
Qed.

(** An accepted run changed nothing. *)
Lemma accepted_run (newDoc oldDoc userCtx : value) (g : globals) :
  outcome (validate newDoc oldDoc userCtx g) = Normal tt ->
  validate newDoc oldDoc userCtx g = (Normal tt, g).
Proof.
  destruct (validate_cases newDoc oldDoc userCtx g)
    as [H|[[e H]|[(H & _)|[[H _]|(msg & H & _)]]]];
    rewrite H; try discriminate. reflexivity.
Qed.

(* ================================================================== *)
(** * The role lookup, case by case                                    *)
(* ================================================================== *)

(** X4.  With an array of roles, [user_is] answers whether the role is an
    element of the array: the match is exact and on strings only. *)
Theorem user_is_array_membership
    (userCtx : value) (rs : list value) (role : string) :
  get userCtx "roles" = Normal (Arr rs) ->
  exists b : bool,
    user_is userCtx role = Normal b /\ (b = true <-> In (Str role) rs).
Proof.
  intros Hroles. rewrite (user_is_array _ _ _ Hroles).
  eexists; split; [reflexivity|]. split.
  - intros E. apply existsb_exists in E as (e & He & Heq).
    apply strict_eq_string_iff in Heq. now subst.
  - apply existsb_in.
Qed.

Lemma user_is_array_membership_witness :
  exists b : bool,
    user_is (Obj [("roles", Arr [Num 1; Str "Admin"; Str "admin"])]) "admin"
    = Normal b
    /\ (b = true <-> In (Str "admin") [Num 1; Str "Admin"; Str "admin"]).
Proof.
  apply (user_is_array_membership
           (Obj [("roles", Arr [Num 1; Str "Admin"; Str "admin"])])).
  reflexivity.
Defined.

(** X5.  With roles that are one string, [indexOf] is the search of a
    substring: [user_is] answers whether the role occurs anywhere in the
    string. *)
Theorem user_is_string_occurrence
    (userCtx : value) (s role : string) :
  role <> "" ->
  get userCtx "roles" = Normal (Str s) ->
  exists b : bool,
    user_is userCtx role = Normal b
    /\ (b = true <-> exists n : nat, substring n (length role) s = role).
Proof.
  intros Hrole Hroles. unfold user_is. rewrite Hroles. simpl.
  eexists; split; [reflexivity|]. unfold string_indexOf.
  destruct (index 0 role s) as [i|] eqn:Hi.
  - split; [|intros _; apply Z.leb_le; lia].
    intros _. exists i. now apply index_correct1 with (n := 0).
  - split; [discriminate|]. intros [n Hn]. exfalso.
    apply (index_correct3 0 n role s Hi Hrole); [lia | assumption].
Qed.

Lemma user_is_string_occurrence_witness :
  exists b : bool,
    user_is (Obj [("roles", Str "sysadmins")]) "admin" = Normal b
    /\ (b = true <-> exists n : nat, substring n (length "admin") "sysadmins" = "admin").
Proof.
  apply (user_is_string_occurrence (Obj [("roles", Str "sysadmins")])).
  - discriminate.
  - reflexivity.
Defined.

(** X6.  [user_is] ends with a boolean or with a TypeError, and with the
    TypeError exactly when the roles are neither an array nor a string (the
    user context is [undefined] or [null], or has no such roles). *)
Theorem user_is_lookup_error (userCtx : value) (role : string) :
  ((exists b : bool, user_is userCtx role = Normal b)
   \/ user_is userCtx role = HostError TypeError)
  /\ (user_is userCtx role = HostError TypeError
      <-> forall r : value, get userCtx "roles" = Normal r ->
            (forall rs, r <> Arr rs) /\ (forall s, r <> Str s)).
Proof.
  unfold user_is. destruct (get userCtx "roles") as [r|v|e] eqn:Hr.
  - destruct r; simpl;
      (split; [eauto | split;
        [ try discriminate; intros _ r' [= <-]; split; discriminate
        | intros Hbad; try reflexivity;
          destruct (Hbad _ eq_refl) as [Harr Hstr];
          first [now elim (Harr items) | now elim (Hstr s)] ]]).
  - now apply get_no_throw in Hr.
  - apply get_error in Hr as [-> _].
    split; [now right | split; [discriminate | reflexivity]].
Qed.

(* ================================================================== *)
(** * The helper without a type tag                                    *)
(* ================================================================== *)



(* ================================================================== *)
(** * The hook as a whole                                              *)
(* ================================================================== *)

(** X8.  The hook never ends with a ReferenceError, and it ends with a
    TypeError only for one of three reasons: the document is [undefined] or
    [null], its type cannot be converted to a primitive, or the role lookup of
    an edit fails.  The field checks raise no host error. *)
Theorem host_errors_of_validate
    (newDoc oldDoc userCtx : value) (g : globals) (e : host_error) :
  outcome (validate newDoc oldDoc userCtx g) = HostError e ->
  e = TypeError
  /\ (newDoc = Undefined \/ newDoc = Null
      \/ (exists type, get newDoc "type" = Normal type /\ ToString type = None)
      \/ (truthy oldDoc = true
          /\ user_is userCtx "admin" = HostError TypeError)).
Proof.
  destruct (get newDoc "type") as [type|v|e'] eqn:Htype.
  - destruct (eq_listener_info type) as [[|]|v|e'] eqn:Hsame.
    + destruct (truthy oldDoc) eqn:Hold.
      * destruct (user_is userCtx "admin") as [[|]|v|e'] eqn:Hadmin.
        -- rewrite (validate_checked _ _ _ _ g Htype Hsame (or_intror Hadmin)).
           destruct (first_failure (checks newDoc)); discriminate.
        -- unfold validate.
           rewrite bind_eval, Htype, bind_eval, Hsame. cbn [negb].
           rewrite Hold, bind_run, bind_eval, Hadmin. discriminate.
        -- now apply user_is_no_throw in Hadmin.
        -- unfold validate.
           rewrite bind_eval, Htype, bind_eval, Hsame. cbn [negb].
           rewrite Hold, bind_run, bind_eval, Hadmin. simpl. intros [= <-].
           pose proof (user_is_error _ _ _ Hadmin) as ->. auto 6.
      * rewrite (validate_checked _ _ _ _ g Htype Hsame (or_introl Hold)).
        destruct (first_failure (checks newDoc)); discriminate.
    + unfold validate. rewrite bind_eval, Htype, bind_eval, Hsame. discriminate.
    + now apply eq_listener_info_no_throw in Hsame.
    + unfold validate. rewrite bind_eval, Htype, bind_eval, Hsame.
      simpl. intros [= <-]. apply eq_listener_info_error in Hsame as [-> Hnone].
      split; [reflexivity|]. right; right; left. eauto.
  - now apply get_no_throw in Htype.
  - unfold validate. rewrite bind_eval, Htype. simpl. intros [= <-].
    apply get_error in Htype as [-> Hdoc]. split; [reflexivity|].
    destruct Hdoc; auto.
Qed.

Lemma host_errors_of_validate_witness :
  TypeError = TypeError
  /\ (Null = Undefined \/ Null = Null
      \/ (exists type, get Null "type" = Normal type /\ ToString type = None)
      \/ (truthy (Obj []) = true
          /\ user_is (roles []) "admin" = HostError TypeError)).
Proof.
  apply (host_errors_of_validate Null (Obj []) (roles []) fresh TypeError).
  reflexivity.
Defined.

(** X9.  The type test lets in the tag wrapped in one-element arrays: such a
    document is held to every rule of a [listener_info] document. *)
Theorem wrapped_type_is_checked
    (newDoc oldDoc userCtx type : value) (g : globals) :
  get newDoc "type" = Normal type ->
  wraps_listener_info type = true ->
  authorized oldDoc userCtx ->
  outcome (validate newDoc oldDoc userCtx g)
  = verdict (first_failure (checks newDoc)).
Proof.
  intros Htype Hwraps Hauth.
  apply (validate_checked _ _ _ type); auto using wraps_eq_listener_info.
Qed.

Lemma wrapped_type_is_checked_witness :
  outcome (validate (Obj [("type", Arr [Arr [Str "listener_info"]]);
                          ("time_created", Num 100);
                          ("time_uploaded", Str "soon")])
             Null (roles []) fresh)
  = Throw (Obj [("forbidden",
                 Str "Wrong type for `time_uploaded` (string), should be number.")]).
Proof.
  apply (wrapped_type_is_checked
           (Obj [("type", Arr [Arr [Str "listener_info"]]);
                 ("time_created", Num 100);
                 ("time_uploaded", Str "soon")])
           Null (roles []) (Arr [Arr [Str "listener_info"]]) fresh).
  - reflexivity.
  - reflexivity.
  - left. reflexivity.
Defined.

(** X10.  Equal timestamps are refused: the ordering test is [>=], so a
    document uploaded at the instant it was created is rejected. *)
Theorem equal_timestamps_rejected
    (newDoc oldDoc userCtx : value) (instant : float) (g : globals) :
  get newDoc "type" = Normal (Str "listener_info") ->
  authorized oldDoc userCtx ->
  get newDoc "time_created" = Normal (Num instant) ->
  get newDoc "time_uploaded" = Normal (Num instant) ->
  truthy (Num instant) = true ->
  outcome (validate newDoc oldDoc userCtx g)
  = Throw (Obj [("forbidden",
                 Str "Document creation date is after upload date.")]).
Proof.
  intros Htype Hauth Hc Hu Ht.
  rewrite (validate_fields _ _ _ g Htype Hauth).
  unfold checks, field_of. rewrite Hc, Hu. cbv zeta.
  unfold presence, ordering. rewrite Ht. simpl ge.
  rewrite (geb_refl _ (truthy_number _ Ht)). reflexivity.
Qed.

Lemma equal_timestamps_rejected_witness :
  outcome (validate (listener 100 100 station) Null (roles []) fresh)
  = Throw (Obj [("forbidden",
                 Str "Document creation date is after upload date.")]).
Proof.
  apply (equal_timestamps_rejected (listener 100 100 station) Null (roles [])
           100 fresh).
  - reflexivity.
  - left. reflexivity.
  - reflexivity.
  - reflexivity.
  - reflexivity.
Defined.

(** X11.  [data] that is an array passes the test of its type, since
    [typeof] of an array is ["object"], and is then rejected for its missing
    [callsign], whatever its elements. *)
Theorem array_data_lacks_callsign
    (newDoc oldDoc userCtx : value) (created uploaded : float)
    (items : list value) (g : globals) :
  get newDoc "type" = Normal (Str "listener_info") ->
  authorized oldDoc userCtx ->
  get newDoc "time_created" = Normal (Num created) ->
  truthy (Num created) = true ->
  get newDoc "time_uploaded" = Normal (Num uploaded) ->
  truthy (Num uploaded) = true ->
  PrimFloat.ltb created uploaded = true ->
  get newDoc "data" = Normal (Arr items) ->
  outcome (validate newDoc oldDoc userCtx g)
  = Throw (Obj [("forbidden", Str "Must have a `callsign` field.")]).
Proof.
  intros Htype Hauth Hc Tc Hu Tu Hlt Hd.
  rewrite (validate_fields _ _ _ g Htype Hauth).
  unfold checks, field_of. rewrite Hc, Hu, Hd. cbv zeta.
  unfold presence, ordering. rewrite Tc, Tu. simpl ge.
  rewrite (ltb_geb_false _ _ Hlt). reflexivity.
Qed.

Lemma array_data_lacks_callsign_witness :
  outcome (validate (listener 100 200 (Arr [station])) Null (roles []) fresh)
  = Throw (Obj [("forbidden", Str "Must have a `callsign` field.")]).
Proof.
  apply (array_data_lacks_callsign (listener 100 200 (Arr [station])) Null
           (roles []) 100 200 [station] fresh).
  - reflexivity.
  - left. reflexivity.
  - reflexivity.
  - reflexivity.
  - reflexivity.
  - reflexivity.
  - reflexivity.
  - reflexivity.
Defined.

(** X12.  The converse of the invariant of accepted writes: a
    [listener_info] document with truthy numeric timestamps in strict order,
    a [data] object and a non-empty string [callsign] in it is accepted once
    the authorization step is passed, and the globals stay as they were. *)
Theorem valid_document_accepted
    (newDoc oldDoc userCtx : value) (created uploaded : float)
    (station_data : list (string * value)) (callsign : string) (g : globals) :
  get newDoc "type" = Normal (Str "listener_info") ->
  authorized oldDoc userCtx ->
  get newDoc "time_created" = Normal (Num created) ->
  truthy (Num created) = true ->
  get newDoc "time_uploaded" = Normal (Num uploaded) ->
  truthy (Num uploaded) = true ->
  PrimFloat.ltb created uploaded = true ->
  get newDoc "data" = Normal (Obj station_data) ->
  lookup "callsign" station_data = Str callsign ->
  callsign <> "" ->
  validate newDoc oldDoc userCtx g = (Normal tt, g).
Proof.
  intros Htype Hauth Hc Tc Hu Tu Hlt Hd Hcs Hne.
  apply accepted_run. rewrite (validate_fields _ _ _ g Htype Hauth).
  unfold checks, field_of. rewrite Hc, Hu, Hd. simpl get. rewrite Hcs. cbv zeta.
  unfold presence, ordering. rewrite Tc, Tu. simpl ge.
  rewrite (ltb_geb_false _ _ Hlt). simpl.
  apply String.eqb_neq in Hne. now rewrite Hne.
Qed.

Lemma valid_document_accepted_witness :
  validate (listener 100 200 station) (Obj []) (roles ["admin"]) fresh
  = (Normal tt, fresh).
Proof.
  apply (valid_document_accepted (listener 100 200 station) (Obj [])
           (roles ["admin"]) 100 200 [("callsign", Str "G0ABC")] "G0ABC" fresh).
  - reflexivity.
  - right. reflexivity.
  - reflexivity.
  - reflexivity.
  - reflexivity.
  - reflexivity.
  - reflexivity.
  - reflexivity.
  - reflexivity.
  - discriminate.
Defined.

(** X13.  Running the hook again on the globals it left gives the same run:
    the message a rejection leaves in the global [message] is the message the
    next rejection of the same write assigns. *)
Theorem rerun_is_the_same_run
    (newDoc oldDoc userCtx : value) (g : globals) :
  validate newDoc oldDoc userCtx (final (validate newDoc oldDoc userCtx g))
  = validate newDoc oldDoc userCtx g.
Proof.
  destruct (validate_cases newDoc oldDoc userCtx g)
    as [H|[[e H]|[(H & _)|[[H _]|(msg & H & _)]]]];
    try (rewrite H; simpl; exact H).
  pose proof (stateless_validate newDoc oldDoc userCtx
                (final (validate newDoc oldDoc userCtx g)) g) as Hsame.
  rewrite H in *. unfold final, rejected in *. simpl snd in *.
  set (g' := {| message := Some (Str msg) |}) in *.
  destruct (validate_cases newDoc oldDoc userCtx g')
    as [H'|[[e H']|[(H' & _)|[[H' _]|(msg' & H' & _)]]]];
    rewrite H' in Hsame |- *; simpl in Hsame; try discriminate.
  - injection Hsame as <-. reflexivity.
  - unfold rejected in Hsame |- *. simpl in Hsame. injection Hsame as ->.
    reflexivity.
Qed.
